(** * agent_core.py: tool registry and agent session controller

    A shallow embedding of [src/agent_core.py].  Python objects become
    records, the instance [self] is passed and returned explicitly, and
    every call that leaves the module (the Azure Functions client, the Logic
    Apps client, the credential, the AI project client) goes through one
    handler of the
    outside world, so that the calls made and the exceptions raised can be
    stated.  Computations live in a state-and-exception monad whose state
    survives a raise. *)

From Stdlib Require Import String List Bool ZArith.
From ExtLib Require Import Structures.Monad Structures.MonadExc.
Import ListNotations MonadNotation.
Open Scope string_scope.
Open Scope monad_scope.

Set Implicit Arguments.
Set Warnings "-register-all".

(** ** Python values and exceptions *)

(** The JSON-like values that travel through the tools ([Dict[str, Any]]). *)
Inductive pyval : Type :=
| PyNone
| PyBool (b : bool)
| PyInt (z : Z)
| PyStr (s : string)
| PyList (l : list pyval)
| PyDict (d : list (string * pyval)).

(** The class of a raised object.  [KeyboardInterrupt], [SystemExit] and
    [GeneratorExit] derive from [BaseException] only; every other class
    derives from [Exception]. *)
Inductive exc_class : Type :=
| KeyboardInterrupt
| SystemExit
| GeneratorExit
| ExceptionClass (name : string).

(** A raised object: its class and [str(e)]. *)
Record pyexc : Type := mkExc { exc_type : exc_class; exc_str : string }.

(** [isinstance(e, Exception)], the test of an [except Exception] clause. *)
Definition isinstance_Exception (e : pyexc) : bool :=
  match exc_type e with
  | ExceptionClass _ => true
  | _ => false
  end.

Definition IndexError : pyexc :=
  mkExc (ExceptionClass "IndexError") "list index out of range".

(** The outcome of a Python call: a returned value or a raised exception. *)
Inductive result (A : Type) : Type :=
| Ok (a : A)
| Raise (e : pyexc).
Arguments Ok {A} a.
Arguments Raise {A} e.

Definition raised {A} (r : result A) : option pyexc :=
  match r with
  | Ok _ => None
  | Raise e => Some e
  end.

Definition result_map {A B} (f : A -> B) (r : result A) : result B :=
  match r with
  | Ok a => Ok (f a)
  | Raise e => Raise e
  end.

(** Truthiness of a [str]: only the empty string is falsy. *)
Definition truthy (s : string) : bool :=
  match s with
  | EmptyString => false
  | String _ _ => true
  end.

(** [x or default] for [x : Optional[str]]: [None] and [""] are falsy. *)
Definition py_or (x : option string) (default : string) : string :=
  match x with
  | Some s => if truthy s then s else default
  | None => default
  end.

(** ** Python dicts

    A [dict] keeps insertion order; assigning to a key that is present
    replaces its value in place. *)
Section Dict.
Variable V : Type.

Fixpoint dict_set (k : string) (v : V) (d : list (string * V)) : list (string * V) :=
  match d with
  | [] => [(k, v)]
  | (k', v') :: d' =>
      if String.eqb k' k then (k, v) :: d' else (k', v') :: dict_set k v d'
  end.

Fixpoint dict_get (k : string) (d : list (string * V)) : option V :=
  match d with
  | [] => None
  | (k', v') :: d' => if String.eqb k' k then Some v' else dict_get k d'
  end.

Definition dict_keys (d : list (string * V)) : list string := map fst d.
End Dict.

(** ** Objects of the collaborating libraries *)

(** [azure.ai.projects.models.FunctionTool], as this module builds it: the
    descriptor keeps the three keyword arguments it is constructed with. *)
Module FunctionTool.
Record t : Type := mk { name : string; description : string; parameters : pyval }.
End FunctionTool.

(** Modelled from the spec: [FunctionConfig] and [AzureFunctionsClient] of
    [src.abstractions.azure_functions], which this file imports.  The spec
    gives an endpoint configuration a target URL and an access key, and has
    the client perform "a single HTTP call against a configured function
    endpoint with a given payload", returning a result or raising.  This
    file reads [function_url] and calls [invoke_function]; the client keeps
    its configuration and the call is an outside call. *)
Record FunctionConfig : Type :=
  { function_url : string; function_key : string }.

Record AzureFunctionsClient : Type := { function_config : FunctionConfig }.

(** Modelled from the spec: [LogicAppConfig] and [LogicAppsClient] of
    [src.abstractions.logic_apps], in the same way.  This file reads
    [workflow_url] and calls [trigger_workflow]. *)
Record LogicAppConfig : Type := { workflow_url : string }.

Record LogicAppsClient : Type := { logic_app_config : LogicAppConfig }.

(** The objects the agents client returns, with the attributes read here. *)
Module Agent.
Record t : Type := mk { id : string }.
End Agent.

Module AgentThread.
Record t : Type := mk { id : string }.
End AgentThread.

Module ThreadRun.
Record t : Type := mk { status : string }.
End ThreadRun.

Record MessageTextDetails : Type := { value : string }.

(** An element of [message.content]: only the text variant has a [text]
    attribute. *)
Inductive MessageContent : Type :=
| MessageTextContent (text : MessageTextDetails)
| MessageImageFileContent (image_file : string).

Module ThreadMessage.
Record t : Type := mk { role : string; content : list MessageContent }.
End ThreadMessage.

(** The object [DefaultAzureCredential()] of [azure.identity] returns: opaque
    to this module, which hands it to the project client; the reference
    tells one credential from another. *)
Record DefaultAzureCredential : Type := { credential_ref : string }.

(** ** Calls that leave the module *)

Inductive ext_call : Type :=
| InvokeFunction (config : FunctionConfig) (payload : list (string * pyval))
| TriggerWorkflow (config : LogicAppConfig) (payload : list (string * pyval))
| NewDefaultAzureCredential
| NewProjectClient (endpoint : string) (credential : DefaultAzureCredential)
| CreateAgent (model name instructions : string)
    (tools : list FunctionTool.t) (tool_resources : pyval)
| CreateThread
| CreateMessage (thread_id role content : string)
| CreateAndProcessRun (thread_id agent_id : string)
| ListMessages (thread_id : string)
| DeleteAgent (agent_id : string).

(** What each call returns when it returns. *)
Definition response (c : ext_call) : Type :=
  match c with
  | InvokeFunction _ _ => pyval
  | TriggerWorkflow _ _ => pyval
  | NewDefaultAzureCredential => DefaultAzureCredential
  | NewProjectClient _ _ => unit
  | CreateAgent _ _ _ _ _ => Agent.t
  | CreateThread => AgentThread.t
  | CreateMessage _ _ _ => ThreadMessage.t
  | CreateAndProcessRun _ _ => ThreadRun.t
  | ListMessages _ => list ThreadMessage.t
  | DeleteAgent _ => unit
  end.

(** One entry of the call history: the call and the exception it raised,
    if any. *)
Record event : Type := mkEvent { ev_call : ext_call; ev_raised : option pyexc }.

Inductive level : Type := INFO | ERROR.

(** ** [AgentConfig] *)

Record AgentConfig : Type :=
  { project_endpoint : string;
    use_managed_identity : bool;
    model_name : string;
    instructions : string }.

Definition ValidationError : pyexc :=
  mkExc (ExceptionClass "ValidationError") "project_endpoint: Field required".

(** [AgentConfig(...)]: a keyword left out is [None] here.  The model's
    fields carry [Field(...)] (required, no other constraint) for
    [project_endpoint] and a default for the three others. *)
Definition new_AgentConfig (project_endpoint : option string)
    (use_managed_identity : option bool)
    (model_name instructions : option string) : result AgentConfig :=
  match project_endpoint with
  | None => Raise ValidationError
  | Some endpoint =>
      Ok {| project_endpoint := endpoint;
            use_managed_identity :=
              match use_managed_identity with Some b => b | None => true end;
            model_name :=
              match model_name with Some m => m | None => "gpt-4" end;
            instructions :=
              match instructions with
              | Some i => i
              | None => "You are a helpful AI assistant with access to Azure tools."
              end |}
  end.

(** ** The module, over an arbitrary outside world *)

Section AgentCore.
(** The state of everything outside the process, and how it answers. *)
Variable S : Type.
Variable handle : forall c : ext_call, S -> result (response c) * S.

Record World : Type :=
  mkWorld { remote : S; calls : list event; log : list (level * string) }.

(** A computation: it returns or raises, and leaves a world either way. *)
Definition M (A : Type) : Type := World -> result A * World.

#[local] Instance Monad_M : Monad M :=
  {| ret := fun A (a : A) (w : World) => (Ok a, w);
     bind := fun A B (c : M A) (k : A -> M B) (w : World) =>
               match c w with
               | (Ok a, w') => k a w'
               | (Raise e, w') => (Raise e, w')
               end |}.

#[local] Instance Exc_M : MonadExc pyexc M :=
  {| raise := fun A (e : pyexc) (w : World) => (Raise e, w);
     catch := fun A (c : M A) (h : pyexc -> M A) (w : World) =>
                match c w with
                | (Ok a, w') => (Ok a, w')
                | (Raise e, w') => h e w'
                end |}.

(** [try: body except Exception as e: handler(e)]. *)
Definition try_except_Exception {A} (body : M A) (handler : pyexc -> M A) : M A :=
  catch body (fun e => if isinstance_Exception e then handler e else raise e).

Definition lift {A} (r : result A) : M A := fun w => (r, w).

Definition logger_info (msg : string) : M unit :=
  fun w => (Ok tt, mkWorld (remote w) (calls w) (log w ++ [(INFO, msg)])).

Definition logger_error (msg : string) : M unit :=
  fun w => (Ok tt, mkWorld (remote w) (calls w) (log w ++ [(ERROR, msg)])).

(** Perform one outside call and record it. *)
Definition rpc (c : ext_call) : M (response c) :=
  fun w =>
    let (r, s') := handle c (remote w) in
    (r, mkWorld s' (calls w ++ [mkEvent c (raised r)]) (log w)).

Definition invoke_function (client : AzureFunctionsClient)
    (payload : list (string * pyval)) : M pyval :=
  rpc (InvokeFunction (function_config client) payload).

Definition trigger_workflow (client : LogicAppsClient)
    (payload : list (string * pyval)) : M pyval :=
  rpc (TriggerWorkflow (logic_app_config client) payload).

(** A Python callable taking [**kwargs], with its [__name__]. *)
Record Callable : Type :=
  { __name__ : string; __call__ : list (string * pyval) -> M pyval }.

(** The instance state of [FoundryAgent]; [_client] is the outside world. *)
Record FoundryAgent : Type :=
  { config : AgentConfig;
    _tools : list (string * Callable);
    _function_tools : list FunctionTool.t }.

(** [FoundryAgent.__init__]. *)
Definition FoundryAgent_init (config : AgentConfig) : M FoundryAgent :=
  credential <- rpc NewDefaultAzureCredential ;;
  rpc (NewProjectClient (project_endpoint config) credential) ;;
  logger_info ("Initialized Foundry Agent with project: " ++ project_endpoint config) ;;
  ret {| config := config; _tools := []; _function_tools := [] |}.

(** The two updates every registration makes:
    [self._tools[name] = function] and
    [self._function_tools.append(function_tool)]. *)
Definition store_tool (self : FoundryAgent) (name : string)
    (function : Callable) (function_tool : FunctionTool.t) : FoundryAgent :=
  {| config := self.(config);
     _tools := dict_set name function self.(_tools);
     _function_tools := self.(_function_tools) ++ [function_tool] |}.

(** The parameter schema of the two built-in kinds of tool. *)
Definition payload_schema (payload_description : string) : pyval :=
  PyDict
    [("type", PyStr "object");
     ("properties",
       PyDict [("payload",
                 PyDict [("type", PyStr "object");
                         ("description", PyStr payload_description)])]);
     ("required", PyList [PyStr "payload"])].

Definition failed (e : pyexc) : pyval :=
  PyDict [("error", PyStr (exc_str e)); ("status", PyStr "failed")].

(** The closure [tool_function] of [register_azure_function_tool], over
    the [name] and the [client] it captures. *)
Definition azure_function_tool_function (name : string) (client : AzureFunctionsClient)
    (kwargs : list (string * pyval)) : M pyval :=
  logger_info ("Invoking Azure Function tool: " ++ name) ;;
  try_except_Exception
    (result <- invoke_function client kwargs ;;
     logger_info ("Azure Function tool '" ++ name ++ "' executed successfully") ;;
     ret result)
    (fun e =>
       logger_error ("Azure Function tool '" ++ name ++ "' failed: " ++ exc_str e) ;;
       ret (failed e)).

Definition register_azure_function_tool (self : FoundryAgent) (name : string)
    (config : FunctionConfig) (description : option string) : M FoundryAgent :=
  let client := {| function_config := config |} in
  let tool_function :=
    {| __name__ := name; __call__ := azure_function_tool_function name client |} in
  let function_tool :=
    FunctionTool.mk name
      (py_or description
         ("Azure Function tool: " ++ name ++ " - Invokes Azure Function at "
            ++ function_url config))
      (payload_schema "JSON payload to send to the Azure Function") in
  let self := store_tool self name tool_function function_tool in
  logger_info ("Registered Azure Function tool: " ++ name) ;;
  ret self.

(** The closure [tool_function] of [register_logic_app_tool]. *)
Definition logic_app_tool_function (name : string) (client : LogicAppsClient)
    (kwargs : list (string * pyval)) : M pyval :=
  logger_info ("Invoking Logic App tool: " ++ name) ;;
  try_except_Exception
    (result <- trigger_workflow client kwargs ;;
     logger_info ("Logic App tool '" ++ name ++ "' executed successfully") ;;
     ret result)
    (fun e =>
       logger_error ("Logic App tool '" ++ name ++ "' failed: " ++ exc_str e) ;;
       ret (failed e)).

Definition register_logic_app_tool (self : FoundryAgent) (name : string)
    (config : LogicAppConfig) (description : option string) : M FoundryAgent :=
  let client := {| logic_app_config := config |} in
  let tool_function :=
    {| __name__ := name; __call__ := logic_app_tool_function name client |} in
  let function_tool :=
    FunctionTool.mk name
      (py_or description
         ("Logic App workflow tool: " ++ name ++ " - Triggers workflow at "
            ++ workflow_url config))
      (payload_schema "JSON payload to send to the Logic App workflow") in
  let self := store_tool self name tool_function function_tool in
  logger_info ("Registered Logic App tool: " ++ name) ;;
  ret self.

Definition register_custom_tool (self : FoundryAgent) (name : string)
    (function : Callable) (description : string) (parameters : pyval)
    : M FoundryAgent :=
  let function_tool := FunctionTool.mk name description parameters in
  let self := store_tool self name function function_tool in
  logger_info ("Registered custom tool: " ++ name) ;;
  ret self.

Definition create_agent (self : FoundryAgent) (name : option string) : M string :=
  let agent_name := py_or name "Azure Tools Agent" in
  logger_info ("Creating agent: " ++ agent_name) ;;
  agent <- rpc (CreateAgent self.(config).(model_name) agent_name
                  self.(config).(instructions) self.(_function_tools) (PyDict [])) ;;
  logger_info ("Agent created with ID: " ++ Agent.id agent) ;;
  ret (Agent.id agent).

(** The branch of [run_agent] taken when [thread_id] is falsy. *)
Definition run_agent_new_thread : M string :=
  thread <- rpc CreateThread ;;
  logger_info ("Created new thread: " ++ AgentThread.id thread) ;;
  ret (AgentThread.id thread).

(** The loop that ends [run_agent]. *)
Fixpoint run_agent_scan (messages : list ThreadMessage.t) : result string :=
  match messages with
  | [] => Ok "No response generated"
  | message :: messages' =>
      if String.eqb (ThreadMessage.role message) "assistant" then
        match ThreadMessage.content message with
        | [] => Raise IndexError
        | MessageTextContent text :: _ => Ok (value text)
        | MessageImageFileContent _ :: _ => run_agent_scan messages'
        end
      else run_agent_scan messages'
  end.

(** [run_agent] up to the listing: the thread is chosen, the message posted,
    the run made and the messages fetched. *)
Definition run_agent_messages (self : FoundryAgent) (agent_id user_message : string)
    (thread_id : option string) : M (list ThreadMessage.t) :=
  logger_info ("Running agent " ++ agent_id ++ " with message: "
                 ++ substring 0 50 user_message ++ "...") ;;
  thread_id <- match thread_id with
               | Some t => if truthy t then ret t else run_agent_new_thread
               | None => run_agent_new_thread
               end ;;
  rpc (CreateMessage thread_id "user" user_message) ;;
  run <- rpc (CreateAndProcessRun thread_id agent_id) ;;
  logger_info ("Agent run completed with status: " ++ ThreadRun.status run) ;;
  rpc (ListMessages thread_id).

Definition run_agent (self : FoundryAgent) (agent_id user_message : string)
    (thread_id : option string) : M string :=
  messages <- run_agent_messages self agent_id user_message thread_id ;;
  lift (run_agent_scan messages).

Definition list_tools (self : FoundryAgent) : list string :=
  dict_keys self.(_tools).

Definition delete_agent (self : FoundryAgent) (agent_id : string) : M unit :=
  rpc (DeleteAgent agent_id) ;;
  logger_info ("Deleted agent: " ++ agent_id).

(** A message the loop of [run_agent] passes over: its role is not
    "assistant", or element 0 of its content has no [text]. *)
Definition skipped (message : ThreadMessage.t) : bool :=
  negb (String.eqb (ThreadMessage.role message) "assistant")
  || match ThreadMessage.content message with
     | MessageImageFileContent _ :: _ => true
     | _ => false
     end.

(** A message that carries text in some element of its content. *)
Definition carries_text (message : ThreadMessage.t) : bool :=
  existsb (fun c => match c with MessageTextContent _ => true | _ => false end)
    (ThreadMessage.content message).

(** The three calls [run_agent] makes on a thread. *)
Definition thread_calls (thread_id agent_id user_message : string) : list ext_call :=
  [CreateMessage thread_id "user" user_message;
   CreateAndProcessRun thread_id agent_id;
   ListMessages thread_id].

(** A computation that stops at the first outside call that raises, and
    raises what that call raised: the calls it adds to the history are
    [evs], and an entry of [evs] that raised is the last one and gives the
    outcome. *)
Definition propagates {A} (c : M A) (w : World) : Prop :=
  exists evs,
    calls (snd (c w)) = (calls w ++ evs)%list
    /\ forall ev e,
         In ev evs -> ev_raised ev = Some e ->
         fst (c w) = Raise e /\ exists before, evs = (before ++ [ev])%list.

(** What a [try] ... [except Exception] that answers [failed e] makes of the
    outcome of its body. *)
Definition wrapped (r : result pyval) : result pyval :=
  match r with
  | Ok v => Ok v
  | Raise e => if isinstance_Exception e then Ok (failed e) else Raise e
  end.

(** ** Sequences of registrations

    The three ways a caller registers a tool, and a caller that registers
    one tool after another on the same instance. *)

Inductive tool_source : Type :=
| FromFunction (config : FunctionConfig) (description : option string)
| FromWorkflow (config : LogicAppConfig) (description : option string)
| FromCustom (function : Callable) (description : string) (parameters : pyval).

Definition register (self : FoundryAgent) (name : string) (src : tool_source)
    : M FoundryAgent :=
  match src with
  | FromFunction config description =>
      register_azure_function_tool self name config description
  | FromWorkflow config description =>
      register_logic_app_tool self name config description
  | FromCustom function description parameters =>
      register_custom_tool self name function description parameters
  end.

Fixpoint register_all (self : FoundryAgent) (regs : list (string * tool_source))
    : M FoundryAgent :=
  match regs with
  | [] => ret self
  | (name, src) :: regs' =>
      self' <- register self name src ;;
      register_all self' regs'
  end.

(** The descriptor a registration appends. *)
Definition descriptor (name : string) (src : tool_source) : FunctionTool.t :=
  match src with
  | FromFunction config description =>
      FunctionTool.mk name
        (py_or description
           ("Azure Function tool: " ++ name ++ " - Invokes Azure Function at "
              ++ function_url config))
        (payload_schema "JSON payload to send to the Azure Function")
  | FromWorkflow config description =>
      FunctionTool.mk name
        (py_or description
           ("Logic App workflow tool: " ++ name ++ " - Triggers workflow at "
              ++ workflow_url config))
        (payload_schema "JSON payload to send to the Logic App workflow")
  | FromCustom _ description parameters =>
      FunctionTool.mk name description parameters
  end.

(** The callable that ends up under the name in [_tools]. *)
Definition registered_callable (name : string) (src : tool_source) : Callable :=
  match src with
  | FromFunction config _ =>
      {| __name__ := name;
         __call__ := azure_function_tool_function name {| function_config := config |} |}
  | FromWorkflow config _ =>
      {| __name__ := name;
         __call__ := logic_app_tool_function name {| logic_app_config := config |} |}
  | FromCustom function _ _ => function
  end.

End AgentCore.

Arguments FromFunction {S} config description.
Arguments FromWorkflow {S} config description.

(** The names of a list that are not in [seen], in the order of their first
    occurrence. *)
Fixpoint first_occurrences (seen names : list string) : list string :=
  match names with
  | [] => []
  | n :: names' =>
      if existsb (String.eqb n) seen then first_occurrences seen names'
      else n :: first_occurrences (seen ++ [n]) names'
  end.

(** ** A scripted outside world, for concrete runs *)

Record Script : Type :=
  { endpoint_answer : result pyval;
    agents_failure : option pyexc;
    new_thread_id : string;
    listing : list ThreadMessage.t }.

Definition answer {A} (s : Script) (a : A) : result A :=
  match agents_failure s with
  | Some e => Raise e
  | None => Ok a
  end.

(** The endpoints answer [endpoint_answer]; the credential and the project
    client are built; the agents client raises
    [agents_failure] when it is set, and otherwise creates agent
    ["asst_1"], thread [new_thread_id] and lists [listing]. *)
Definition scripted (c : ext_call) (s : Script) : result (response c) * Script :=
  match c as c0 return result (response c0) * Script with
  | InvokeFunction _ _ => (endpoint_answer s, s)
  | TriggerWorkflow _ _ => (endpoint_answer s, s)
  | NewDefaultAzureCredential => (Ok {| credential_ref := "default" |}, s)
  | NewProjectClient _ _ => (Ok tt, s)
  | CreateAgent _ _ _ _ _ => (answer s (Agent.mk "asst_1"), s)
  | CreateThread => (answer s (AgentThread.mk (new_thread_id s)), s)
  | CreateMessage _ role content =>
      (answer s (ThreadMessage.mk role [MessageTextContent {| value := content |}]), s)
  | CreateAndProcessRun _ _ => (answer s (ThreadRun.mk "completed"), s)
  | ListMessages _ => (answer s (listing s), s)
  | DeleteAgent _ => (answer s tt, s)
  end.

Definition script (endpoint_answer : result pyval) (agents_failure : option pyexc)
    (new_thread_id : string) (listing : list ThreadMessage.t) : World Script :=
  mkWorld
    {| endpoint_answer := endpoint_answer; agents_failure := agents_failure;
       new_thread_id := new_thread_id; listing := listing |}
    [] [].

Definition quiet : World Script := script (Ok PyNone) None "t1" [].

Definition example_config : AgentConfig :=
  {| project_endpoint := "https://my-project.api.azureml.ms";
     use_managed_identity := true;
     model_name := "gpt-4";
     instructions := "You are a helpful AI assistant with access to Azure tools." |}.

Definition fresh (config : AgentConfig) : FoundryAgent Script :=
  {| config := config; _tools := []; _function_tools := [] |}.

Definition process_config : FunctionConfig :=
  {| function_url := "https://x/api/process"; function_key := "key123" |}.

Definition notify_config : LogicAppConfig :=
  {| workflow_url := "https://x/workflows/notify" |}.

Definition user_says (text : string) : ThreadMessage.t :=
  ThreadMessage.mk "user" [MessageTextContent {| value := text |}].

Definition assistant_says (text : string) : ThreadMessage.t :=
  ThreadMessage.mk "assistant" [MessageTextContent {| value := text |}].

(** ** Consistency of the two registries

    The names of [_tools] are the names of the descriptors, each once, in
    the order of its first descriptor. *)
Definition registry_consistent {S : Type} (self : FoundryAgent S) : Prop :=
  list_tools self
  = first_occurrences [] (map FunctionTool.name (_function_tools self)).

(** A scripted world whose runs end with status "failed". *)
Definition scripted_failed_run (c : ext_call) (s : Script)
    : result (response c) * Script :=
  match c as c0 return result (response c0) * Script with
  | CreateAndProcessRun _ _ => (Ok (ThreadRun.mk "failed"), s)
  | c0 => scripted c0 s
  end.

(** * Properties *)

(** ** Dicts *)

Section DictFacts.
Variable V : Type.
Implicit Types (d : list (string * V)) (k : string) (v : V).

Lemma dict_get_set_same k v d : dict_get k (dict_set k v d) = Some v.
Proof.
  induction d as [|[k' v'] d IH]; simpl.
  - now rewrite String.eqb_refl.
  - destruct (String.eqb k' k) eqn:E; simpl.
    + now rewrite String.eqb_refl.
    + now rewrite E.
Qed.

Lemma dict_get_set_other k k0 v d :
  k0 <> k -> dict_get k0 (dict_set k v d) = dict_get k0 d.
Proof.
  intros Hne. induction d as [|[k' v'] d IH]; simpl.
  - destruct (String.eqb_spec k k0); congruence.
  - destruct (String.eqb_spec k' k) as [->|Hk]; simpl.
    + destruct (String.eqb_spec k k0); congruence.
    + destruct (String.eqb_spec k' k0); congruence.
Qed.

Lemma dict_keys_set_present k v d :
  In k (dict_keys d) -> dict_keys (dict_set k v d) = dict_keys d.
Proof.
  induction d as [|[k' v'] d IH]; simpl; [tauto|].
  intros Hin. destruct (String.eqb_spec k' k) as [->|Hk]; simpl; [reflexivity|].
  f_equal. apply IH. destruct Hin; congruence.
Qed.

Lemma dict_keys_set_absent k v d :
  ~ In k (dict_keys d) -> dict_keys (dict_set k v d) = (dict_keys d ++ [k])%list.
Proof.
  induction d as [|[k' v'] d IH]; simpl; [reflexivity|].
  intros Hin. destruct (String.eqb_spec k' k) as [->|Hk]; simpl; [tauto|].
  f_equal. apply IH. tauto.
Qed.

Lemma dict_keys_set_NoDup k v d :
  NoDup (dict_keys d) -> NoDup (dict_keys (dict_set k v d)).
Proof.
  intros Hnd. destruct (in_dec string_dec k (dict_keys d)) as [Hin|Hout].
  - now rewrite dict_keys_set_present.
  - rewrite dict_keys_set_absent by assumption.
    apply NoDup_app; [assumption | repeat constructor; simpl; tauto |].
    intros x Hx [<-|[]]. contradiction.
Qed.

End DictFacts.

(** ** Registration *)

Section Registry.
Variable S : Type.
Variable handle : forall c : ext_call, S -> result (response c) * S.
Implicit Types (self : FoundryAgent S) (w : World S) (src : tool_source S).

Lemma register_returns self name src w :
  exists w',
    register handle self name src w
    = (Ok (store_tool self name (registered_callable handle name src)
             (descriptor name src)), w')
    /\ remote w' = remote w /\ calls w' = calls w.
Proof.
  destruct src; simpl; eexists; (split; [reflexivity | split; reflexivity]).
Qed.

Lemma register_all_returns regs : forall self w,
  exists self' w', register_all handle self regs w = (Ok self', w').
Proof.
  induction regs as [|[name src] regs IH]; intros self w; simpl.
  - now eexists _, _.
  - destruct (register_returns self name src w) as (w1 & -> & _).
    apply IH.
Qed.

Lemma existsb_eqb_In (n : string) (seen : list string) :
  existsb (String.eqb n) seen = true <-> In n seen.
Proof.
  rewrite existsb_exists. split.
  - intros (x & Hx & E). apply String.eqb_eq in E. now subst.
  - intros Hn. exists n. split; [assumption | apply String.eqb_refl].
Qed.

Lemma register_all_shape regs : forall self w,
  exists self' w',
    register_all handle self regs w = (Ok self', w')
    /\ list_tools self'
       = (list_tools self ++ first_occurrences (list_tools self) (map fst regs))%list
    /\ _function_tools self'
       = (_function_tools self
            ++ map (fun r => descriptor (fst r) (snd r)) regs)%list
    /\ (NoDup (list_tools self) -> NoDup (list_tools self')).
Proof.
  induction regs as [|[name src] regs IH]; intros self w; simpl.
  - eexists _, _. split; [reflexivity|]. now rewrite !app_nil_r.
  - destruct (register_returns self name src w) as (w1 & -> & _).
    destruct (IH (store_tool self name (registered_callable handle name src)
                    (descriptor name src)) w1)
      as (self' & w' & -> & Hnames & Hdescr & Hnodup).
    exists self', w'. split; [reflexivity|].
    unfold list_tools in *. simpl in *.
    split; [|split].
    + destruct (existsb (String.eqb name) (dict_keys (_tools self))) eqn:E.
      * apply existsb_eqb_In in E.
        now rewrite dict_keys_set_present in Hnames by assumption.
      * assert (~ In name (dict_keys (_tools self))) as Hout
          by (rewrite <- existsb_eqb_In; congruence).
        rewrite dict_keys_set_absent in Hnames by assumption.
        now rewrite <- app_assoc in Hnames.
    + now rewrite <- app_assoc in Hdescr.
    + intros Hnd. now apply Hnodup, dict_keys_set_NoDup.
Qed.

(** C3.  Registering "a", "b" and "a" again on a new instance, by any of the
    three registrations, leaves the names ["a"; "b"] and three descriptors,
    so the two counts differ.  In general the names are those registered, in
    the order of their first registration and without repetition, while
    every registration appends one descriptor; registering a name that is
    present keeps the list of names, rebinds that name alone to the new
    callable and appends the new descriptor. *)
Theorem reregistration_keeps_names_and_appends_descriptor :
  (forall cfg src1 src2 src3 w,
     exists self' w',
       register_all handle {| config := cfg; _tools := []; _function_tools := [] |}
         [("a", src1); ("b", src2); ("a", src3)] w = (Ok self', w')
       /\ list_tools self' = ["a"; "b"]
       /\ List.length (_function_tools self') = 3
       /\ List.length (list_tools self') <> List.length (_function_tools self'))
  /\ (forall cfg regs w,
        exists self' w',
          register_all handle {| config := cfg; _tools := []; _function_tools := [] |}
            regs w = (Ok self', w')
          /\ list_tools self' = first_occurrences [] (map fst regs)
          /\ NoDup (list_tools self')
          /\ List.length (_function_tools self') = List.length regs)
  /\ (forall self name src w,
        In name (list_tools self) ->
        exists self' w',
          register handle self name src w = (Ok self', w')
          /\ list_tools self' = list_tools self
          /\ _function_tools self'
             = (_function_tools self ++ [descriptor name src])%list
          /\ dict_get name (_tools self') = Some (registered_callable handle name src)
          /\ forall other, other <> name ->
               dict_get other (_tools self') = dict_get other (_tools self)).
Proof.
  split; [|split].
  - intros cfg src1 src2 src3 w.
    destruct (register_all_shape [("a", src1); ("b", src2); ("a", src3)]
                {| config := cfg; _tools := []; _function_tools := [] |} w)
      as (self' & w' & Hrun & Hnames & Hdescr & _).
    exists self', w'. split; [exact Hrun|].
    simpl in Hnames, Hdescr. rewrite Hnames, Hdescr. simpl.
    repeat split; discriminate.
  - intros cfg regs w.
    destruct (register_all_shape regs
                {| config := cfg; _tools := []; _function_tools := [] |} w)
      as (self' & w' & Hrun & Hnames & Hdescr & Hnodup).
    exists self', w'. split; [exact Hrun|].
    simpl in Hnames, Hdescr. split; [exact Hnames|]. split.
    + apply Hnodup. constructor.
    + rewrite Hdescr. apply length_map.
  - intros self name src w Hin.
    destruct (register_returns self name src w) as (w' & Hrun & _).
    eexists _, w'. split; [exact Hrun|].
    unfold list_tools in *. simpl.
    split; [now apply dict_keys_set_present|].
    split; [reflexivity|].
    split; [apply dict_get_set_same|].
    intros other Hne. now apply dict_get_set_other.
Qed.

(** C6.  Registered without a description, a function tool is described as
    "Azure Function tool: <name> - Invokes Azure Function at <url>" and a
    workflow tool as "Logic App workflow tool: <name> - Triggers workflow at
    <url>"; for the name "process" and the URL "https://x/api/process" that
    is the literal text of the last conjunct. *)
Theorem default_description :
  (forall self name config w,
     exists self' w' function_tool,
       register_azure_function_tool handle self name config None w = (Ok self', w')
       /\ _function_tools self' = (_function_tools self ++ [function_tool])%list
       /\ FunctionTool.name function_tool = name
       /\ FunctionTool.description function_tool
          = "Azure Function tool: " ++ name ++ " - Invokes Azure Function at "
              ++ function_url config)
  /\ (forall self name config w,
        exists self' w' function_tool,
          register_logic_app_tool handle self name config None w = (Ok self', w')
          /\ _function_tools self' = (_function_tools self ++ [function_tool])%list
          /\ FunctionTool.name function_tool = name
          /\ FunctionTool.description function_tool
             = "Logic App workflow tool: " ++ name ++ " - Triggers workflow at "
                 ++ workflow_url config)
  /\ (forall self key w,
        exists self' w' function_tool,
          register_azure_function_tool handle self "process"
            {| function_url := "https://x/api/process"; function_key := key |}
            None w = (Ok self', w')
          /\ _function_tools self' = (_function_tools self ++ [function_tool])%list
          /\ FunctionTool.description function_tool
             = "Azure Function tool: process - Invokes Azure Function at https://x/api/process").
Proof.
  split; [|split]; intros; eexists _, _, _;
    (split; [reflexivity|]); repeat split; reflexivity.
Qed.

End Registry.

(** ** The wrappers of function and workflow tools *)

Section Wrappers.
Variable S : Type.
Variable handle : forall c : ext_call, S -> result (response c) * S.
Implicit Types (self : FoundryAgent S) (w : World S) (e : pyexc) (v : pyval).

Lemma azure_function_tool_function_run name config kwargs w :
  let out := handle (InvokeFunction config kwargs) (remote w) in
  let end_ :=
    azure_function_tool_function handle name {| function_config := config |} kwargs w in
  fst end_ = wrapped (fst out)
  /\ remote (snd end_) = snd out
  /\ calls (snd end_)
     = (calls w ++ [mkEvent (InvokeFunction config kwargs) (raised (fst out))])%list.
Proof.
  unfold azure_function_tool_function, try_except_Exception, invoke_function, rpc.
  simpl.
  destruct (handle (InvokeFunction config kwargs) (remote w)) as [[v|e] s']; simpl.
  - repeat split.
  - destruct (isinstance_Exception e); simpl; repeat split.
Qed.

Lemma logic_app_tool_function_run name config kwargs w :
  let out := handle (TriggerWorkflow config kwargs) (remote w) in
  let end_ :=
    logic_app_tool_function handle name {| logic_app_config := config |} kwargs w in
  fst end_ = wrapped (fst out)
  /\ remote (snd end_) = snd out
  /\ calls (snd end_)
     = (calls w ++ [mkEvent (TriggerWorkflow config kwargs) (raised (fst out))])%list.
Proof.
  unfold logic_app_tool_function, try_except_Exception, trigger_workflow, rpc.
  simpl.
  destruct (handle (TriggerWorkflow config kwargs) (remote w)) as [[v|e] s']; simpl.
  - repeat split.
  - destruct (isinstance_Exception e); simpl; repeat split.
Qed.

Lemma function_tool_registered self name config description w0 self' w0' :
  register_azure_function_tool handle self name config description w0 = (Ok self', w0') ->
  dict_get name (_tools self')
  = Some {| __name__ := name;
            __call__ :=
              azure_function_tool_function handle name {| function_config := config |} |}.
Proof.
  unfold register_azure_function_tool. simpl. intros H.
  injection H as <- _. apply dict_get_set_same.
Qed.

Lemma workflow_tool_registered self name config description w0 self' w0' :
  register_logic_app_tool handle self name config description w0 = (Ok self', w0') ->
  dict_get name (_tools self')
  = Some {| __name__ := name;
            __call__ :=
              logic_app_tool_function handle name {| logic_app_config := config |} |}.
Proof.
  unfold register_logic_app_tool. simpl. intros H.
  injection H as <- _. apply dict_get_set_same.
Qed.

(** C4.  The wrapper stored by a function or workflow registration calls its
    client once with the keyword payload and, when the client returns a
    value, returns that value. *)
Theorem wrapper_returns_client_value :
  (forall self name config description w0 self' w0',
     register_azure_function_tool handle self name config description w0
     = (Ok self', w0') ->
     exists tool,
       dict_get name (_tools self') = Some tool
       /\ forall kwargs w v s',
            handle (InvokeFunction config kwargs) (remote w) = (Ok v, s') ->
            fst (__call__ tool kwargs w) = Ok v
            /\ calls (snd (__call__ tool kwargs w))
               = (calls w ++ [mkEvent (InvokeFunction config kwargs) None])%list)
  /\ (forall self name config description w0 self' w0',
        register_logic_app_tool handle self name config description w0
        = (Ok self', w0') ->
        exists tool,
          dict_get name (_tools self') = Some tool
          /\ forall kwargs w v s',
               handle (TriggerWorkflow config kwargs) (remote w) = (Ok v, s') ->
               fst (__call__ tool kwargs w) = Ok v
               /\ calls (snd (__call__ tool kwargs w))
                  = (calls w ++ [mkEvent (TriggerWorkflow config kwargs) None])%list).
Proof.
  split; intros self name config description w0 self' w0' Hreg.
  - eexists. split; [exact (function_tool_registered Hreg)|].
    intros kwargs w v s' Hout. simpl.
    destruct (azure_function_tool_function_run name config kwargs w) as (Hr & _ & Hc).
    rewrite Hr, Hc, Hout. now split.
  - eexists. split; [exact (workflow_tool_registered Hreg)|].
    intros kwargs w v s' Hout. simpl.
    destruct (logic_app_tool_function_run name config kwargs w) as (Hr & _ & Hc).
    rewrite Hr, Hc, Hout. now split.
Qed.

(** C1, as amended.  When the client raises an instance of [Exception], the
    wrapper stored by a function or workflow registration returns the dict
    with the two keys "error", bound to [str(e)], and "status", bound to
    "failed"; when the client raises anything else, the wrapper raises it
    unchanged, and the wrapper raises in no other case. *)
Theorem wrapper_converts_Exception :
  (forall self name config description w0 self' w0',
     register_azure_function_tool handle self name config description w0
     = (Ok self', w0') ->
     exists tool,
       dict_get name (_tools self') = Some tool
       /\ (forall kwargs w e s',
             handle (InvokeFunction config kwargs) (remote w) = (Raise e, s') ->
             isinstance_Exception e = true ->
             fst (__call__ tool kwargs w)
             = Ok (PyDict [("error", PyStr (exc_str e)); ("status", PyStr "failed")]))
       /\ (forall kwargs w e s',
             handle (InvokeFunction config kwargs) (remote w) = (Raise e, s') ->
             isinstance_Exception e = false ->
             fst (__call__ tool kwargs w) = Raise e)
       /\ (forall kwargs w e,
             fst (__call__ tool kwargs w) = Raise e ->
             isinstance_Exception e = false
             /\ fst (handle (InvokeFunction config kwargs) (remote w)) = Raise e))
  /\ (forall self name config description w0 self' w0',
        register_logic_app_tool handle self name config description w0
        = (Ok self', w0') ->
        exists tool,
          dict_get name (_tools self') = Some tool
          /\ (forall kwargs w e s',
                handle (TriggerWorkflow config kwargs) (remote w) = (Raise e, s') ->
                isinstance_Exception e = true ->
                fst (__call__ tool kwargs w)
                = Ok (PyDict [("error", PyStr (exc_str e)); ("status", PyStr "failed")]))
          /\ (forall kwargs w e s',
                handle (TriggerWorkflow config kwargs) (remote w) = (Raise e, s') ->
                isinstance_Exception e = false ->
                fst (__call__ tool kwargs w) = Raise e)
          /\ (forall kwargs w e,
                fst (__call__ tool kwargs w) = Raise e ->
                isinstance_Exception e = false
                /\ fst (handle (TriggerWorkflow config kwargs) (remote w)) = Raise e)).
Proof.
  split; intros self name config description w0 self' w0' Hreg.
  - eexists. split; [exact (function_tool_registered Hreg)|].
    split; [|split].
    + intros kwargs w e s' Hout He. simpl.
      destruct (azure_function_tool_function_run name config kwargs w) as (Hr & _).
      rewrite Hr, Hout. simpl. now rewrite He.
    + intros kwargs w e s' Hout He. simpl.
      destruct (azure_function_tool_function_run name config kwargs w) as (Hr & _).
      rewrite Hr, Hout. simpl. now rewrite He.
    + intros kwargs w e. simpl.
      destruct (azure_function_tool_function_run name config kwargs w) as (Hr & _).
      rewrite Hr.
      destruct (handle (InvokeFunction config kwargs) (remote w)) as [[v|e'] s'];
        simpl; [discriminate|].
      destruct (isinstance_Exception e') eqn:He'; [discriminate|].
      intros [= <-]. split; [exact He' | reflexivity].
  - eexists. split; [exact (workflow_tool_registered Hreg)|].
    split; [|split].
    + intros kwargs w e s' Hout He. simpl.
      destruct (logic_app_tool_function_run name config kwargs w) as (Hr & _).
      rewrite Hr, Hout. simpl. now rewrite He.
    + intros kwargs w e s' Hout He. simpl.
      destruct (logic_app_tool_function_run name config kwargs w) as (Hr & _).
      rewrite Hr, Hout. simpl. now rewrite He.
    + intros kwargs w e. simpl.
      destruct (logic_app_tool_function_run name config kwargs w) as (Hr & _).
      rewrite Hr.
      destruct (handle (TriggerWorkflow config kwargs) (remote w)) as [[v|e'] s'];
        simpl; [discriminate|].
      destruct (isinstance_Exception e') eqn:He'; [discriminate|].
      intros [= <-]. split; [exact He' | reflexivity].
Qed.

End Wrappers.

(** ** The session controller *)

Section Controller.
Variable S : Type.
Variable handle : forall c : ext_call, S -> result (response c) * S.
Implicit Types (self : FoundryAgent S) (w : World S) (e : pyexc).

(** Case analysis on the answer to the next outside call. *)
Ltac next_call :=
  match goal with
  | |- context [handle ?c ?s] =>
      let E := fresh "Hcall" in
      destruct (handle c s) as [[?|?] ?] eqn:E; simpl
  end.

(** C8, as amended.  [create_agent] makes one outside call, create-agent
    with the configured model, the given name (the literal "Azure Tools
    Agent" when the name is omitted or empty), the configured instructions,
    the list of registered descriptors and an empty dict of tool resources,
    and returns the identifier of the agent the call answers. *)
Theorem create_agent_call :
  forall self name w,
    let agent_name :=
      match name with
      | None => "Azure Tools Agent"
      | Some "" => "Azure Tools Agent"
      | Some n => n
      end in
    let c :=
      CreateAgent (model_name (config self)) agent_name (instructions (config self))
        (_function_tools self) (PyDict []) in
    let end_ := create_agent handle self name w in
    fst end_ = result_map Agent.id (fst (handle c (remote w)))
    /\ calls (snd end_)
       = (calls w ++ [mkEvent c (raised (fst (handle c (remote w))))])%list.
Proof.
  intros self name w. unfold create_agent, rpc. simpl.
  assert (py_or name "Azure Tools Agent"
          = match name with
            | None => "Azure Tools Agent"
            | Some "" => "Azure Tools Agent"
            | Some n => n
            end) as -> by (destruct name as [[|a n]|]; reflexivity).
  next_call; split; reflexivity.
Qed.


Lemma In_firstn (A : Type) (x : A) (k : nat) (l : list A) :
  In x (firstn k l) -> In x l.
Proof.
  intros Hin. rewrite <- (firstn_skipn k l). apply in_or_app. now left.
Qed.

Ltac no_raise_absurd :=
  repeat match goal with
         | H : Forall _ (_ :: _) |- _ => inversion H; clear H; subst
         end;
  simpl in *; discriminate.

Ltac prefix_of_thread_calls :=
  first [ exists 3; reflexivity | exists 2; reflexivity | exists 1; reflexivity ].

Lemma run_agent_calls_new_thread self agent_id user_message thread_id w :
  thread_id = None \/ thread_id = Some "" ->
  let end_ := run_agent handle self agent_id user_message thread_id w in
  exists evs,
    calls (snd end_) = (calls w ++ evs)%list
    /\ match fst (handle CreateThread (remote w)) with
       | Raise e => evs = [mkEvent CreateThread (Some e)]
       | Ok thread =>
           (exists k,
              map ev_call evs
              = CreateThread
                  :: firstn k (thread_calls (AgentThread.id thread) agent_id user_message))
           /\ (Forall (fun ev => ev_raised ev = None) evs ->
               map ev_call evs
               = CreateThread
                   :: thread_calls (AgentThread.id thread) agent_id user_message)
       end.
Proof.
  intros Hnone.
  unfold run_agent, run_agent_messages, run_agent_new_thread, rpc, logger_info, lift.
  destruct Hnone as [-> | ->]; simpl;
    repeat next_call; rewrite <- ?app_assoc; simpl;
    (eexists; split; [reflexivity|]);
    try reflexivity;
    (split; [prefix_of_thread_calls | intros Hok; first [reflexivity | no_raise_absurd]]).
Qed.

Lemma run_agent_calls_given_thread self agent_id user_message t w :
  t <> "" ->
  let end_ := run_agent handle self agent_id user_message (Some t) w in
  exists evs,
    calls (snd end_) = (calls w ++ evs)%list
    /\ (exists k, 1 <= k
                  /\ map ev_call evs = firstn k (thread_calls t agent_id user_message))
    /\ (Forall (fun ev => ev_raised ev = None) evs ->
        map ev_call evs = thread_calls t agent_id user_message).
Proof.
  intros Ht.
  unfold run_agent, run_agent_messages, run_agent_new_thread, rpc, logger_info, lift.
  destruct t as [|a t]; [congruence|]. simpl.
  repeat next_call; rewrite <- ?app_assoc; simpl;
    (eexists; split; [reflexivity|]);
    (split;
     [ first [ exists 3; split; [auto with arith | reflexivity]
             | exists 2; split; [auto with arith | reflexivity]
             | exists 1; split; [auto with arith | reflexivity] ]
     | intros Hok; first [reflexivity | no_raise_absurd]]).
Qed.

(** C7, as amended.  Called with no [thread_id] (or with the empty string),
    [run_agent] first creates a thread by one outside call and then posts
    the user message with role "user", makes the run and lists the
    messages, each on the thread that call answered; called with a
    non-empty [thread_id] it makes those three calls on that thread and
    creates none.  A call that raises ends the sequence. *)
Theorem run_agent_thread_use :
  (forall self agent_id user_message thread_id w,
     thread_id = None \/ thread_id = Some "" ->
     exists evs,
       calls (snd (run_agent handle self agent_id user_message thread_id w))
       = (calls w ++ evs)%list
       /\ match fst (handle CreateThread (remote w)) with
          | Raise e => evs = [mkEvent CreateThread (Some e)]
          | Ok thread =>
              (exists k,
                 map ev_call evs
                 = CreateThread
                     :: firstn k
                          (thread_calls (AgentThread.id thread) agent_id user_message))
              /\ (Forall (fun ev => ev_raised ev = None) evs ->
                  map ev_call evs
                  = [CreateThread;
                     CreateMessage (AgentThread.id thread) "user" user_message;
                     CreateAndProcessRun (AgentThread.id thread) agent_id;
                     ListMessages (AgentThread.id thread)])
          end)
  /\ (forall self agent_id user_message t w,
        t <> "" ->
        exists evs,
          calls (snd (run_agent handle self agent_id user_message (Some t) w))
          = (calls w ++ evs)%list
          /\ ~ In CreateThread (map ev_call evs)
          /\ (exists k, 1 <= k
                        /\ map ev_call evs
                           = firstn k (thread_calls t agent_id user_message))
          /\ (Forall (fun ev => ev_raised ev = None) evs ->
              map ev_call evs
              = [CreateMessage t "user" user_message;
                 CreateAndProcessRun t agent_id;
                 ListMessages t])).
Proof.
  split.
  - intros self agent_id user_message thread_id w Hnone.
    exact (run_agent_calls_new_thread self agent_id user_message w Hnone).
  - intros self agent_id user_message t w Ht.
    destruct (run_agent_calls_given_thread self agent_id user_message w Ht)
      as (evs & Hcalls & (k & Hk & Hprefix) & Hall).
    exists evs. split; [exact Hcalls|]. split; [|split].
    + rewrite Hprefix. intros Hin. apply In_firstn in Hin.
      simpl in Hin. intuition discriminate.
    + now exists k.
    + exact Hall.
Qed.


(** *** The scan of the listed messages *)

Lemma run_agent_scan_skipped before after :
  Forall (fun m => skipped m = true) before ->
  run_agent_scan (before ++ after) = run_agent_scan after.
Proof.
  induction 1 as [|m before Hm _ IH]; simpl; [reflexivity|].
  unfold skipped in Hm.
  destruct (String.eqb (ThreadMessage.role m) "assistant"); simpl in Hm; [|exact IH].
  destruct (ThreadMessage.content m) as [|[text|image] rest];
    [discriminate | discriminate | exact IH].
Qed.

Lemma run_agent_after_listing self agent_id user_message thread_id w messages w' :
  run_agent_messages handle self agent_id user_message thread_id w = (Ok messages, w') ->
  run_agent handle self agent_id user_message thread_id w
  = (run_agent_scan messages, w').
Proof.
  intros H. unfold run_agent, lift. simpl. now rewrite H.
Qed.

Lemma run_agent_messages_listed self agent_id user_message thread_id w messages w' :
  run_agent_messages handle self agent_id user_message thread_id w = (Ok messages, w') ->
  exists t s, handle (ListMessages t) s = (Ok messages, remote w').
Proof.
  unfold run_agent_messages, run_agent_new_thread, rpc, logger_info.
  destruct thread_id as [[|a t]|]; simpl;
    repeat next_call; intros [= <- <-]; simpl; eauto.
Qed.

(** C2, as amended.  Once the run is made and the listing has answered,
    [run_agent] scans the listed messages in their order and returns the
    text of element 0 of the content of the first message with role
    "assistant" whose element 0 is textual, provided no message with role
    "assistant" and an empty content comes before it; when every message is
    passed over, and so when every message has role "user", it returns "No
    response generated". *)
Theorem run_agent_first_assistant_text :
  forall self agent_id user_message thread_id w messages w',
    run_agent_messages handle self agent_id user_message thread_id w
    = (Ok messages, w') ->
    (exists t s, handle (ListMessages t) s = (Ok messages, remote w'))
    /\ (forall before m text rest after,
          messages = (before ++ m :: after)%list ->
          Forall (fun m' => skipped m' = true) before ->
          ThreadMessage.role m = "assistant" ->
          ThreadMessage.content m = MessageTextContent text :: rest ->
          run_agent handle self agent_id user_message thread_id w
          = (Ok (value text), w'))
    /\ (Forall (fun m => skipped m = true) messages ->
        run_agent handle self agent_id user_message thread_id w
        = (Ok "No response generated", w'))
    /\ (Forall (fun m => ThreadMessage.role m = "user") messages ->
        run_agent handle self agent_id user_message thread_id w
        = (Ok "No response generated", w')).
Proof.
  intros self agent_id user_message thread_id w messages w' Hlist.
  rewrite (run_agent_after_listing _ _ _ _ _ Hlist).
  split; [exact (run_agent_messages_listed _ _ _ _ _ Hlist)|].
  split; [|split].
  - intros before m text rest after -> Hbefore Hrole Hcontent.
    rewrite (run_agent_scan_skipped _ Hbefore). simpl.
    now rewrite Hrole, Hcontent.
  - intros Hall. rewrite <- (app_nil_r messages).
    now rewrite (run_agent_scan_skipped _ Hall).
  - intros Hall. rewrite <- (app_nil_r messages).
    rewrite run_agent_scan_skipped; [reflexivity|].
    eapply Forall_impl; [|exact Hall].
    intros m Hm. unfold skipped. now rewrite Hm.
Qed.

(** C10.  The scan looks at element 0 of the content of a message with role
    "assistant" and at nothing else of it: when the first such message that
    is not passed over has an empty content, [run_agent] raises
    [IndexError] to its caller instead of returning the sentinel; when
    element 0 has no text, the message is passed over whatever follows
    element 0, text included; and two listings with the same roles and the
    same elements 0 give the same outcome. *)
Theorem run_agent_inspects_element_0 :
  forall self agent_id user_message thread_id w messages w',
    run_agent_messages handle self agent_id user_message thread_id w
    = (Ok messages, w') ->
    (forall before m after,
       messages = (before ++ m :: after)%list ->
       Forall (fun m' => skipped m' = true) before ->
       ThreadMessage.role m = "assistant" ->
       ThreadMessage.content m = [] ->
       run_agent handle self agent_id user_message thread_id w
       = (Raise IndexError, w'))
    /\ (forall before m image rest after,
          messages = (before ++ m :: after)%list ->
          Forall (fun m' => skipped m' = true) before ->
          ThreadMessage.role m = "assistant" ->
          ThreadMessage.content m = MessageImageFileContent image :: rest ->
          run_agent handle self agent_id user_message thread_id w
          = (run_agent_scan after, w'))
    /\ (forall messages',
          map (fun m => (ThreadMessage.role m, hd_error (ThreadMessage.content m)))
            messages'
          = map (fun m => (ThreadMessage.role m, hd_error (ThreadMessage.content m)))
              messages ->
          run_agent_scan messages' = run_agent_scan messages).
Proof.
  intros self agent_id user_message thread_id w messages w' Hlist.
  rewrite (run_agent_after_listing _ _ _ _ _ Hlist).
  split; [|split].
  - intros before m after -> Hbefore Hrole Hcontent.
    rewrite (run_agent_scan_skipped _ Hbefore). simpl.
    now rewrite Hrole, Hcontent.
  - intros before m image rest after -> Hbefore Hrole Hcontent.
    rewrite (run_agent_scan_skipped _ Hbefore). simpl.
    now rewrite Hrole, Hcontent.
  - clear Hlist. induction messages as [|m messages IH]; intros [|m' messages'];
      simpl; try discriminate; [reflexivity|].
    intros [= Hrole Hhead Htail]. rewrite Hrole, (IH _ Htail).
    destruct (ThreadMessage.content m') as [|c' rest'],
             (ThreadMessage.content m) as [|c rest];
      simpl in Hhead; try discriminate; [reflexivity|].
    now injection Hhead as ->.
Qed.


(** *** Failures of the outside calls *)

Ltac last_raised :=
  eexists; split; [reflexivity|];
  intros ? ? Hin Hraised; simpl in Hin;
  repeat match goal with
         | H : _ \/ _ |- _ => destruct H
         | H : False |- _ => destruct H
         end;
  subst; simpl in Hraised; try discriminate;
  injection Hraised as <-;
  (split;
   [ reflexivity
   | first [ exists []; reflexivity
           | eexists [_]; reflexivity
           | eexists [_; _]; reflexivity
           | eexists [_; _; _]; reflexivity ] ]).

Lemma create_agent_propagates self name w :
  propagates (create_agent handle self name) w.
Proof.
  unfold propagates, create_agent, rpc, logger_info. simpl.
  repeat next_call; rewrite <- ?app_assoc; simpl; last_raised.
Qed.

Lemma run_agent_propagates self agent_id user_message thread_id w :
  propagates (run_agent handle self agent_id user_message thread_id) w.
Proof.
  unfold propagates, run_agent, run_agent_messages, run_agent_new_thread,
    rpc, logger_info, lift.
  destruct thread_id as [[|a t]|]; simpl;
    repeat next_call; rewrite <- ?app_assoc; simpl; last_raised.
Qed.

Lemma delete_agent_propagates self agent_id w :
  propagates (delete_agent handle self agent_id) w.
Proof.
  unfold propagates, delete_agent, rpc, logger_info. simpl.
  repeat next_call; rewrite <- ?app_assoc; simpl; last_raised.
Qed.

(** C9.  [create_agent], [run_agent] and [delete_agent] catch nothing: an
    exception raised by one of their outside calls is the outcome of the
    operation, unchanged, and no further call follows it.  A callable
    registered by [register_custom_tool] is stored as it is, so a call of
    the registered tool raises what the callable raises, instances of
    [Exception] included. *)
Theorem controller_propagates_failures :
  (forall self name w, propagates (create_agent handle self name) w)
  /\ (forall self agent_id user_message thread_id w,
        propagates (run_agent handle self agent_id user_message thread_id) w)
  /\ (forall self agent_id w, propagates (delete_agent handle self agent_id) w)
  /\ (forall self name function description parameters w0 self' w0',
        register_custom_tool self name function description parameters w0
        = (Ok self', w0') ->
        exists tool,
          dict_get name (_tools self') = Some tool
          /\ forall kwargs w e,
               fst (__call__ function kwargs w) = Raise e ->
               fst (__call__ tool kwargs w) = Raise e).
Proof.
  split; [exact create_agent_propagates|].
  split; [exact run_agent_propagates|].
  split; [exact delete_agent_propagates|].
  intros self name function description parameters w0 self' w0'.
  unfold register_custom_tool. simpl. intros [= <- _].
  exists function. split; [apply dict_get_set_same | auto].
Qed.

(** C5, as amended.  [AgentConfig] requires the endpoint and checks nothing
    else about it: construction without an endpoint is rejected, and
    construction with any string, the empty one included, is accepted and
    keeps that string, with the documented defaults for the fields left
    out.  [FoundryAgent.__init__] does not look at the endpoint either: it
    builds the credential, passes the endpoint and that credential to the
    project client, and succeeds whenever both are built. *)
Theorem AgentConfig_requires_endpoint :
  (forall use_managed_identity model_name instructions,
     new_AgentConfig None use_managed_identity model_name instructions
     = Raise ValidationError)
  /\ (forall endpoint use_managed_identity model_name instructions,
        exists cfg,
          new_AgentConfig (Some endpoint) use_managed_identity model_name instructions
          = Ok cfg
          /\ project_endpoint cfg = endpoint)
  /\ (forall endpoint,
        new_AgentConfig (Some endpoint) None None None
        = Ok {| project_endpoint := endpoint;
                use_managed_identity := true;
                model_name := "gpt-4";
                instructions :=
                  "You are a helpful AI assistant with access to Azure tools." |})
  /\ (forall cfg w,
        fst (FoundryAgent_init handle cfg w)
        = match handle NewDefaultAzureCredential (remote w) with
          | (Raise e, _) => Raise e
          | (Ok credential, s1) =>
              result_map
                (fun _ => {| config := cfg; _tools := []; _function_tools := [] |})
                (fst (handle (NewProjectClient (project_endpoint cfg) credential) s1))
          end).
Proof.
  split; [reflexivity|]. split; [|split].
  - intros. eexists. split; reflexivity.
  - reflexivity.
  - intros cfg w. unfold FoundryAgent_init, rpc, logger_info. simpl.
    repeat next_call; reflexivity.
Qed.

End Controller.

(** * Concrete runs *)

(** C3 at a concrete instance: "a" registered as a function tool, then
    registered again as a workflow tool. *)
Lemma reregistration_witness :
  exists self' w',
    register scripted
      (store_tool (fresh example_config) "a"
         (registered_callable scripted "a" (FromFunction process_config None))
         (descriptor "a" (@FromFunction Script process_config None)))
      "a" (FromWorkflow notify_config None) quiet
    = (Ok self', w')
    /\ list_tools self' = ["a"]
    /\ List.length (_function_tools self') = 2.
Proof.
  destruct (proj2 (proj2 (reregistration_keeps_names_and_appends_descriptor scripted))
              (store_tool (fresh example_config) "a"
                 (registered_callable scripted "a" (FromFunction process_config None))
                 (descriptor "a" (@FromFunction Script process_config None)))
              "a" (FromWorkflow notify_config None) quiet (or_introl eq_refl))
    as (self' & w' & Hrun & Hnames & Hdescr & _).
  exists self', w'. split; [exact Hrun|].
  rewrite Hnames, Hdescr. split; reflexivity.
Defined.

(** C4 at a concrete instance: the endpoint answers a dict. *)
Lemma wrapper_returns_client_value_witness :
  let v := PyDict [("result", PyInt 6)] in
  let w := script (Ok v) None "t1" [] in
  exists tool,
    dict_get "process"
      (_tools (store_tool (fresh example_config) "process"
                 (registered_callable scripted "process"
                    (FromFunction process_config None))
                 (descriptor "process" (@FromFunction Script process_config None))))
    = Some tool
    /\ fst (__call__ tool [("payload", PyList [PyInt 1; PyInt 2; PyInt 3])] w) = Ok v.
Proof.
  intros v w.
  destruct (proj1 (wrapper_returns_client_value scripted)
              (fresh example_config) "process" process_config None quiet
              _ _ eq_refl)
    as (tool & Hget & Hcall).
  exists tool. split; [exact Hget|].
  exact (proj1 (Hcall [("payload", PyList [PyInt 1; PyInt 2; PyInt 3])] w v
                  (remote w) eq_refl)).
Defined.

(** C1 at a concrete instance: the endpoint raises an instance of
    [Exception]. *)
Lemma wrapper_converts_Exception_witness :
  let e := mkExc (ExceptionClass "HTTPError") "500 Server Error" in
  let w := script (Raise e) None "t1" [] in
  exists tool,
    dict_get "notify"
      (_tools (store_tool (fresh example_config) "notify"
                 (registered_callable scripted "notify"
                    (FromWorkflow notify_config None))
                 (descriptor "notify" (@FromWorkflow Script notify_config None))))
    = Some tool
    /\ fst (__call__ tool [] w)
       = Ok (PyDict [("error", PyStr "500 Server Error"); ("status", PyStr "failed")]).
Proof.
  intros e w.
  destruct (proj2 (wrapper_converts_Exception scripted)
              (fresh example_config) "notify" notify_config None quiet
              _ _ eq_refl)
    as (tool & Hget & Hcall & _).
  exists tool. split; [exact Hget|].
  exact (Hcall [] w e (remote w) eq_refl eq_refl).
Defined.

(** C1 as stated fails: when the endpoint raises [KeyboardInterrupt], the
    wrappers of both kinds raise it. *)
Lemma wrapper_reraises_KeyboardInterrupt :
  let e := mkExc KeyboardInterrupt "" in
  let w := script (Raise e) None "t1" [] in
  fst (scripted (InvokeFunction process_config []) (remote w)) = Raise e
  /\ match register_azure_function_tool scripted (fresh example_config)
             "process" process_config None w with
     | (Ok self', _) =>
         option_map (fun tool => fst (__call__ tool [] w))
           (dict_get "process" (_tools self'))
     | (Raise _, _) => None
     end = Some (Raise e)
  /\ match register_logic_app_tool scripted (fresh example_config)
             "notify" notify_config None w with
     | (Ok self', _) =>
         option_map (fun tool => fst (__call__ tool [] w))
           (dict_get "notify" (_tools self'))
     | (Raise _, _) => None
     end = Some (Raise e).
Proof.
  repeat split.
Qed.

(** C7 at concrete instances: no [thread_id] with a service that answers
    thread "t1", and the [thread_id] "t7". *)
Lemma run_agent_thread_use_witness :
  map ev_call
    (calls (snd (run_agent scripted (fresh example_config) "asst_1" "hello" None quiet)))
  = [CreateThread;
     CreateMessage "t1" "user" "hello";
     CreateAndProcessRun "t1" "asst_1";
     ListMessages "t1"]
  /\ map ev_call
       (calls (snd (run_agent scripted (fresh example_config) "asst_1" "hello"
                      (Some "t7") quiet)))
     = [CreateMessage "t7" "user" "hello";
        CreateAndProcessRun "t7" "asst_1";
        ListMessages "t7"].
Proof.
  split.
  - destruct (proj1 (run_agent_thread_use scripted)
                (fresh example_config) "asst_1" "hello" None quiet
                (or_introl eq_refl))
      as (evs & Hcalls & Hrest).
    simpl in Hcalls, Hrest. subst evs. destruct Hrest as [_ Hall].
    exact (Hall ltac:(repeat constructor)).
  - destruct (proj2 (run_agent_thread_use scripted)
                (fresh example_config) "asst_1" "hello" "t7" quiet
                ltac:(discriminate))
      as (evs & Hcalls & _ & _ & Hall).
    simpl in Hcalls. subst evs.
    exact (Hall ltac:(repeat constructor)).
Defined.

(** C7 as stated fails: the caller supplies the [thread_id] "", and a
    thread is created and used. *)
Lemma empty_thread_id_creates_thread :
  map ev_call
    (calls (snd (run_agent scripted (fresh example_config) "asst_1" "hello"
                   (Some "") quiet)))
  = [CreateThread;
     CreateMessage "t1" "user" "hello";
     CreateAndProcessRun "t1" "asst_1";
     ListMessages "t1"].
Proof. reflexivity. Qed.

(** C8 as stated fails: the caller gives the name "", and the call carries
    "Azure Tools Agent". *)
Lemma empty_name_replaced_by_default :
  map ev_call
    (calls (snd (create_agent scripted (fresh example_config) (Some "") quiet)))
  = [CreateAgent "gpt-4" "Azure Tools Agent"
       "You are a helpful AI assistant with access to Azure tools." [] (PyDict [])]
  /\ fst (create_agent scripted (fresh example_config) (Some "") quiet) = Ok "asst_1".
Proof. split; reflexivity. Qed.

(** C5 as stated fails: a configuration with the empty endpoint is
    constructed, and a controller is built on it. *)
Lemma empty_endpoint_accepted :
  exists cfg,
    new_AgentConfig (Some "") None None None = Ok cfg
    /\ project_endpoint cfg = ""
    /\ fst (FoundryAgent_init scripted cfg quiet) = Ok (fresh cfg).
Proof. eexists. repeat split. Qed.

(** C2 at a concrete instance: the listing holds a user message and two
    assistant messages. *)
Lemma run_agent_first_assistant_text_witness :
  fst (run_agent scripted (fresh example_config) "asst_1" "hello" None
         (script (Ok PyNone) None "t1"
            [user_says "hello"; assistant_says "hi"; assistant_says "earlier"]))
  = Ok "hi"
  /\ fst (run_agent scripted (fresh example_config) "asst_1" "hello" None
            (script (Ok PyNone) None "t1" [user_says "hello"; user_says "again"]))
     = Ok "No response generated".
Proof.
  split.
  - set (w := script (Ok PyNone) None "t1"
                [user_says "hello"; assistant_says "hi"; assistant_says "earlier"]).
    assert (run_agent_messages scripted (fresh example_config) "asst_1" "hello" None w
            = (Ok [user_says "hello"; assistant_says "hi"; assistant_says "earlier"],
               snd (run_agent_messages scripted (fresh example_config)
                      "asst_1" "hello" None w)))
      as Hlist by (vm_compute; reflexivity).
    destruct (@run_agent_first_assistant_text _ scripted _ _ _ _ _ _ _ Hlist) as (_ & Hfirst & _).
    exact (f_equal fst
             (Hfirst [user_says "hello"] (assistant_says "hi") {| value := "hi" |}
                [] [assistant_says "earlier"] eq_refl
                ltac:(repeat constructor) eq_refl eq_refl)).
  - set (w := script (Ok PyNone) None "t1" [user_says "hello"; user_says "again"]).
    assert (run_agent_messages scripted (fresh example_config) "asst_1" "hello" None w
            = (Ok [user_says "hello"; user_says "again"],
               snd (run_agent_messages scripted (fresh example_config)
                      "asst_1" "hello" None w)))
      as Hlist by (vm_compute; reflexivity).
    destruct (@run_agent_first_assistant_text _ scripted _ _ _ _ _ _ _ Hlist) as (_ & _ & _ & Husers).
    exact (f_equal fst
             (Husers ltac:(repeat constructor))).
Defined.

(** C2 as stated fails twice: an assistant message whose text is element 1
    of its content is passed over, and an assistant message with an empty
    content makes [run_agent] raise although no listed message carries
    text. *)
Lemma run_agent_misses_text_and_raises :
  let later_text :=
    ThreadMessage.mk "assistant"
      [MessageImageFileContent "file-1"; MessageTextContent {| value := "hi" |}] in
  let empty := ThreadMessage.mk "assistant" [] in
  (carries_text later_text = true
   /\ fst (run_agent scripted (fresh example_config) "asst_1" "hello" None
             (script (Ok PyNone) None "t1" [later_text]))
      = Ok "No response generated")
  /\ (existsb carries_text [empty] = false
      /\ fst (run_agent scripted (fresh example_config) "asst_1" "hello" None
                (script (Ok PyNone) None "t1" [empty]))
         = Raise IndexError).
Proof. repeat split. Qed.

(** C10 at concrete instances. *)
Lemma run_agent_inspects_element_0_witness :
  fst (run_agent scripted (fresh example_config) "asst_1" "hello" None
         (script (Ok PyNone) None "t1"
            [user_says "hello"; ThreadMessage.mk "assistant" []; assistant_says "hi"]))
  = Raise IndexError
  /\ fst (run_agent scripted (fresh example_config) "asst_1" "hello" None
            (script (Ok PyNone) None "t1"
               [ThreadMessage.mk "assistant"
                  [MessageImageFileContent "file-1";
                   MessageTextContent {| value := "hi" |}];
                assistant_says "earlier"]))
     = Ok "earlier".
Proof.
  split.
  - set (empty := ThreadMessage.mk "assistant" []).
    set (w := script (Ok PyNone) None "t1"
                [user_says "hello"; empty; assistant_says "hi"]).
    assert (run_agent_messages scripted (fresh example_config) "asst_1" "hello" None w
            = (Ok [user_says "hello"; empty; assistant_says "hi"],
               snd (run_agent_messages scripted (fresh example_config)
                      "asst_1" "hello" None w)))
      as Hlist by (vm_compute; reflexivity).
    destruct (@run_agent_inspects_element_0 _ scripted _ _ _ _ _ _ _ Hlist) as (Hempty & _).
    exact (f_equal fst
             (Hempty [user_says "hello"] empty [assistant_says "hi"] eq_refl
                ltac:(repeat constructor) eq_refl eq_refl)).
  - set (later_text :=
           ThreadMessage.mk "assistant"
             [MessageImageFileContent "file-1"; MessageTextContent {| value := "hi" |}]).
    set (w := script (Ok PyNone) None "t1" [later_text; assistant_says "earlier"]).
    assert (run_agent_messages scripted (fresh example_config) "asst_1" "hello" None w
            = (Ok [later_text; assistant_says "earlier"],
               snd (run_agent_messages scripted (fresh example_config)
                      "asst_1" "hello" None w)))
      as Hlist by (vm_compute; reflexivity).
    destruct (@run_agent_inspects_element_0 _ scripted _ _ _ _ _ _ _ Hlist) as (_ & Hskip & _).
    exact (f_equal fst
             (Hskip [] later_text "file-1" [MessageTextContent {| value := "hi" |}]
                [assistant_says "earlier"] eq_refl ltac:(constructor) eq_refl eq_refl)).
Defined.

(** C9 at concrete instances: the agents client raises on every call, and a
    custom tool raises an instance of [Exception]. *)
Lemma controller_propagates_failures_witness :
  let e := mkExc (ExceptionClass "HttpResponseError") "service unavailable" in
  let w := script (Ok PyNone) (Some e) "t1" [] in
  let broken : Callable Script :=
    {| __name__ := "broken";
       __call__ := fun _ w => (Raise (mkExc (ExceptionClass "ValueError") "bad"), w) |} in
  fst (create_agent scripted (fresh example_config) None w) = Raise e
  /\ fst (run_agent scripted (fresh example_config) "asst_1" "hello" (Some "t7") w)
     = Raise e
  /\ fst (delete_agent scripted (fresh example_config) "asst_1" w) = Raise e
  /\ exists tool,
       dict_get "broken"
         (_tools (store_tool (fresh example_config) "broken" broken
                    (FunctionTool.mk "broken" "always fails" (PyDict []))))
       = Some tool
       /\ fst (__call__ tool [] quiet) = Raise (mkExc (ExceptionClass "ValueError") "bad").
Proof.
  intros e w broken.
  destruct (controller_propagates_failures scripted)
    as (Hcreate & Hrun & Hdelete & Hcustom).
  split; [|split; [|split]].
  - destruct (Hcreate (fresh example_config) None w) as (evs & Hcalls & Hlast).
    simpl in Hcalls. subst evs.
    exact (proj1 (Hlast _ e (or_introl eq_refl) eq_refl)).
  - destruct (Hrun (fresh example_config) "asst_1" "hello" (Some "t7") w)
      as (evs & Hcalls & Hlast).
    simpl in Hcalls. subst evs.
    exact (proj1 (Hlast _ e (or_introl eq_refl) eq_refl)).
  - destruct (Hdelete (fresh example_config) "asst_1" w) as (evs & Hcalls & Hlast).
    simpl in Hcalls. subst evs.
    exact (proj1 (Hlast _ e (or_introl eq_refl) eq_refl)).
  - destruct (Hcustom (fresh example_config) "broken" broken "always fails"
                (PyDict []) quiet _ _ eq_refl)
      as (tool & Hget & Hcall).
    exists tool. split; [exact Hget|].
    exact (Hcall [] quiet _ eq_refl).
Defined.

(** * Further properties *)

(** ** First occurrences *)

Lemma first_occurrences_snoc names : forall seen n,
  first_occurrences seen (names ++ [n])
  = (first_occurrences seen names
       ++ (if existsb (String.eqb n) (seen ++ names) then [] else [n]))%list.
Proof.
  induction names as [|x names IH]; intros seen n; simpl.
  - rewrite app_nil_r. now destruct (existsb (String.eqb n) seen).
  - destruct (existsb (String.eqb x) seen) eqn:Ex.
    + rewrite IH. f_equal. rewrite !existsb_app. simpl.
      destruct (String.eqb_spec n x) as [->|Hne]; simpl; [|reflexivity].
      now rewrite Ex.
    + simpl. rewrite IH. now rewrite <- app_assoc.
Qed.

Lemma first_occurrences_In names : forall seen n,
  In n (first_occurrences seen names) <-> In n names /\ ~ In n seen.
Proof.
  induction names as [|x names IH]; intros seen n; simpl; [tauto|].
  destruct (existsb (String.eqb x) seen) eqn:Ex.
  - rewrite IH. apply existsb_eqb_In in Ex.
    split; [tauto|]. intros [[<-|Hin] Hout]; tauto.
  - assert (~ In x seen) as Hx by (rewrite <- existsb_eqb_In; congruence).
    simpl. rewrite IH, in_app_iff. simpl.
    destruct (string_dec x n) as [<-|Hne]; [tauto|]. tauto.
Qed.

Lemma first_occurrences_length names : forall seen,
  List.length (first_occurrences seen names) <= List.length names.
Proof.
  induction names as [|x names IH]; intros seen; simpl; [constructor|].
  destruct (existsb (String.eqb x) seen); simpl.
  - apply le_S, IH.
  - apply le_n_S, IH.
Qed.

Section Further.
Variable S : Type.
Variable handle : forall c : ext_call, S -> result (response c) * S.
Implicit Types (self : FoundryAgent S) (w : World S) (src : tool_source S).

Ltac answer_of_call :=
  match goal with
  | |- context [handle ?c ?s] =>
      let E := fresh "Hanswer" in
      destruct (handle c s) as [[?|?] ?] eqn:E; simpl
  end.

Lemma descriptor_name name src : FunctionTool.name (descriptor name src) = name.
Proof. now destruct src. Qed.

(** X1.  [delete_agent] makes exactly one outside call, delete-agent with
    the given identifier; its outcome is the outcome of that call, and the
    deletion is logged only when the call returned. *)
Theorem delete_agent_one_call :
  forall self agent_id w,
    let out := handle (DeleteAgent agent_id) (remote w) in
    let end_ := delete_agent handle self agent_id w in
    fst end_ = fst out
    /\ remote (snd end_) = snd out
    /\ calls (snd end_)
       = (calls w ++ [mkEvent (DeleteAgent agent_id) (raised (fst out))])%list
    /\ log (snd end_)
       = (log w ++ match fst out with
                   | Ok _ => [(INFO, ("Deleted agent: " ++ agent_id)%string)]
                   | Raise _ => []
                   end)%list.
Proof.
  intros self agent_id w. unfold delete_agent, rpc, logger_info. simpl.
  answer_of_call; repeat split; try reflexivity.
  - match goal with a : response _ |- _ => simpl in a; now destruct a end.
  - now rewrite app_nil_r.
Qed.



(** X3.  After a registration the name is bound to the callable just
    registered and every other name keeps its binding; the name joins the
    end of the list of names unless it is there already; one descriptor is
    appended. *)
Theorem register_binds_name :
  forall self name src w,
    exists self' w',
      register handle self name src w = (Ok self', w')
      /\ dict_get name (_tools self') = Some (registered_callable handle name src)
      /\ (forall other, other <> name ->
            dict_get other (_tools self') = dict_get other (_tools self))
      /\ list_tools self'
         = (if existsb (String.eqb name) (list_tools self)
            then list_tools self
            else (list_tools self ++ [name])%list)
      /\ _function_tools self'
         = (_function_tools self ++ [descriptor name src])%list.
Proof.
  intros self name src w.
  destruct (register_returns handle self name src w) as (w' & Hrun & _).
  eexists _, w'. split; [exact Hrun|].
  unfold list_tools. simpl.
  split; [apply dict_get_set_same|].
  split; [intros other Hne; now apply dict_get_set_other|].
  split; [|reflexivity].
  destruct (existsb (String.eqb name) (dict_keys (_tools self))) eqn:E.
  - apply dict_keys_set_present. now apply existsb_eqb_In.
  - apply dict_keys_set_absent. rewrite <- existsb_eqb_In. congruence.
Qed.

(** X4.  The two registries stay consistent: a new instance is consistent,
    every registration keeps consistency, and on a consistent instance a
    name is listed exactly when some descriptor carries it, so that there
    are never more names than descriptors. *)
Theorem registration_keeps_consistency :
  (forall cfg,
     registry_consistent
       {| config := cfg; _tools := @nil (string * Callable S); _function_tools := [] |})
  /\ (forall self name src w,
        registry_consistent self ->
        exists self' w',
          register handle self name src w = (Ok self', w')
          /\ registry_consistent self')
  /\ (forall self,
        registry_consistent self ->
        (forall name,
           In name (list_tools self)
           <-> In name (map FunctionTool.name (_function_tools self)))
        /\ List.length (list_tools self) <= List.length (_function_tools self)).
Proof.
  split; [reflexivity|]. split.
  - intros self name src w Hself.
    destruct (register_returns handle self name src w) as (w' & Hrun & _).
    eexists _, w'. split; [exact Hrun|].
    unfold registry_consistent, list_tools in *. simpl.
    rewrite map_app. simpl. rewrite descriptor_name, first_occurrences_snoc.
    simpl. rewrite <- Hself.
    assert (existsb (String.eqb name)
              (map FunctionTool.name (_function_tools self))
            = existsb (String.eqb name) (dict_keys (_tools self))) as ->.
    { destruct (existsb (String.eqb name) (dict_keys (_tools self))) eqn:E.
      - apply existsb_eqb_In. apply existsb_eqb_In in E.
        rewrite Hself in E. now apply first_occurrences_In in E.
      - destruct (existsb (String.eqb name)
                    (map FunctionTool.name (_function_tools self))) eqn:E';
          [|reflexivity].
        apply existsb_eqb_In in E'.
        assert (In name (dict_keys (_tools self))) as Hin
          by (rewrite Hself; apply first_occurrences_In; split; [exact E'|tauto]).
        apply existsb_eqb_In in Hin. congruence. }
    destruct (existsb (String.eqb name) (dict_keys (_tools self))) eqn:E.
    + rewrite app_nil_r. apply dict_keys_set_present. now apply existsb_eqb_In.
    + apply dict_keys_set_absent. rewrite <- existsb_eqb_In. congruence.
  - intros self Hself. unfold registry_consistent in Hself. split.
    + intros name. rewrite Hself, first_occurrences_In. simpl. tauto.
    + rewrite Hself. rewrite <- (length_map FunctionTool.name (_function_tools self)).
      apply first_occurrences_length.
Qed.

(** X5.  A description given to a function or workflow registration is used
    as it is unless it is the empty string, which is replaced by the default
    text like a missing one; [register_custom_tool] keeps the description
    and the parameter schema it is given, the empty description included. *)
Theorem explicit_description :
  (forall self name config d w,
     exists self' w',
       register_azure_function_tool handle self name config (Some d) w = (Ok self', w')
       /\ map FunctionTool.description (_function_tools self')
          = (map FunctionTool.description (_function_tools self)
               ++ [match d with
                   | "" => ("Azure Function tool: " ++ name
                             ++ " - Invokes Azure Function at "
                             ++ function_url config)%string
                   | _ => d
                   end])%list)
  /\ (forall self name config d w,
        exists self' w',
          register_logic_app_tool handle self name config (Some d) w = (Ok self', w')
          /\ map FunctionTool.description (_function_tools self')
             = (map FunctionTool.description (_function_tools self)
                  ++ [match d with
                      | "" => ("Logic App workflow tool: " ++ name
                                ++ " - Triggers workflow at "
                                ++ workflow_url config)%string
                      | _ => d
                      end])%list)
  /\ (forall self name function d parameters w,
        exists self' w',
          register_custom_tool self name function d parameters w = (Ok self', w')
          /\ _function_tools self'
             = (_function_tools self ++ [FunctionTool.mk name d parameters])%list).
Proof.
  split; [|split]; intros; eexists _, _; (split; [reflexivity|]); simpl;
    rewrite ?map_app; simpl; try reflexivity;
    destruct d; reflexivity.
Qed.

(** X6.  Whatever its client does, the wrapper of a function or workflow
    tool calls it exactly once, with the keyword payload, and leaves the
    outside world as the client left it.  It logs the invocation, then the
    success when the client returned or, at level ERROR, the failure with
    [str(e)] when the client raised an instance of [Exception]; nothing more
    is logged when another exception passes through. *)
Theorem wrapper_calls_client_once :
  (forall name config description kwargs w,
     let out := handle (InvokeFunction config kwargs) (remote w) in
     let end_ :=
       __call__ (registered_callable handle name (FromFunction config description))
         kwargs w in
     calls (snd end_)
     = (calls w ++ [mkEvent (InvokeFunction config kwargs) (raised (fst out))])%list
     /\ remote (snd end_) = snd out
     /\ log (snd end_)
        = (log w
             ++ (INFO, ("Invoking Azure Function tool: " ++ name)%string)
             :: match fst out with
                | Ok _ =>
                    [(INFO,
                      ("Azure Function tool '" ++ name ++ "' executed successfully")%string)]
                | Raise e =>
                    if isinstance_Exception e
                    then [(ERROR,
                           ("Azure Function tool '" ++ name ++ "' failed: "
                              ++ exc_str e)%string)]
                    else []
                end)%list)
  /\ (forall name config description kwargs w,
        let out := handle (TriggerWorkflow config kwargs) (remote w) in
        let end_ :=
          __call__ (registered_callable handle name (FromWorkflow config description))
            kwargs w in
        calls (snd end_)
        = (calls w ++ [mkEvent (TriggerWorkflow config kwargs) (raised (fst out))])%list
        /\ remote (snd end_) = snd out
        /\ log (snd end_)
           = (log w
                ++ (INFO, ("Invoking Logic App tool: " ++ name)%string)
                :: match fst out with
                   | Ok _ =>
                       [(INFO,
                         ("Logic App tool '" ++ name ++ "' executed successfully")%string)]
                   | Raise e =>
                       if isinstance_Exception e
                       then [(ERROR,
                              ("Logic App tool '" ++ name ++ "' failed: "
                                 ++ exc_str e)%string)]
                       else []
                   end)%list).
Proof.
  split; intros name config description kwargs w; simpl;
    unfold azure_function_tool_function, logic_app_tool_function,
      try_except_Exception, invoke_function, trigger_workflow, rpc,
      logger_info, logger_error; simpl;
    answer_of_call;
    try match goal with
        | |- context [isinstance_Exception ?e] =>
            destruct (isinstance_Exception e); simpl
        end;
    rewrite <- ?app_assoc; simpl; repeat split.
Qed.

(** X7.  [run_agent] never looks at the run it made: once the message is
    posted, whatever run object the service answers, with whatever status,
    the messages are listed and the outcome is the scan of the listing.
    This holds on a given non-empty thread and on a thread created for the
    call. *)
Theorem run_agent_ignores_run_status :
  (forall self agent_id user_message t w posted s1 run s2 messages s3,
     t <> "" ->
     handle (CreateMessage t "user" user_message) (remote w) = (Ok posted, s1) ->
     handle (CreateAndProcessRun t agent_id) s1 = (Ok run, s2) ->
     handle (ListMessages t) s2 = (Ok messages, s3) ->
     fst (run_agent handle self agent_id user_message (Some t) w)
     = run_agent_scan messages
     /\ remote (snd (run_agent handle self agent_id user_message (Some t) w)) = s3)
  /\ (forall self agent_id user_message thread_id w thread s0 posted s1 run s2
             messages s3,
        thread_id = None \/ thread_id = Some "" ->
        handle CreateThread (remote w) = (Ok thread, s0) ->
        handle (CreateMessage (AgentThread.id thread) "user" user_message) s0
        = (Ok posted, s1) ->
        handle (CreateAndProcessRun (AgentThread.id thread) agent_id) s1 = (Ok run, s2) ->
        handle (ListMessages (AgentThread.id thread)) s2 = (Ok messages, s3) ->
        fst (run_agent handle self agent_id user_message thread_id w)
        = run_agent_scan messages
        /\ remote (snd (run_agent handle self agent_id user_message thread_id w)) = s3).
Proof.
  split.
  - intros self agent_id user_message t w posted s1 run s2 messages s3 Ht H1 H2 H3.
    unfold run_agent, run_agent_messages, rpc, logger_info, lift.
    destruct t as [|a t]; [congruence|]. simpl.
    rewrite H1. simpl. rewrite H2. simpl. rewrite H3. simpl. now split.
  - intros self agent_id user_message thread_id w thread s0 posted s1 run s2
      messages s3 Hnone H0 H1 H2 H3.
    unfold run_agent, run_agent_messages, run_agent_new_thread, rpc, logger_info, lift.
    destruct Hnone as [-> | ->]; simpl;
      rewrite H0; simpl; rewrite H1; simpl; rewrite H2; simpl; rewrite H3; simpl;
      now split.
Qed.

(** X8.  The scan of a listing has one of three outcomes and no other: the
    sentinel when every message is passed over; the text of element 0 of
    the first message not passed over; [IndexError] when the first message
    not passed over has role "assistant" and an empty content. *)
Theorem run_agent_scan_outcomes :
  forall messages,
    (Forall (fun m => skipped m = true) messages
     /\ run_agent_scan messages = Ok "No response generated")
    \/ (exists before m text rest after,
          messages = (before ++ m :: after)%list
          /\ Forall (fun m' => skipped m' = true) before
          /\ ThreadMessage.role m = "assistant"
          /\ ThreadMessage.content m = MessageTextContent text :: rest
          /\ run_agent_scan messages = Ok (value text))
    \/ (exists before m after,
          messages = (before ++ m :: after)%list
          /\ Forall (fun m' => skipped m' = true) before
          /\ ThreadMessage.role m = "assistant"
          /\ ThreadMessage.content m = []
          /\ run_agent_scan messages = Raise IndexError).
Proof.
  induction messages as [|m messages IH].
  - left. split; [constructor | reflexivity].
  - assert (skipped m = true ->
            run_agent_scan (m :: messages) = run_agent_scan messages) as Hskip.
    { unfold skipped. simpl.
      destruct (String.eqb (ThreadMessage.role m) "assistant"); [|reflexivity].
      destruct (ThreadMessage.content m) as [|[text|image] rest];
        simpl; [discriminate | discriminate | reflexivity]. }
    destruct (skipped m) eqn:Hm.
    + rewrite (Hskip eq_refl).
      destruct IH as [[Hall Hs] | [(before & m0 & text & rest & after & -> & Hb & Hr & Hc & Hs)
                                  | (before & m0 & after & -> & Hb & Hr & Hc & Hs)]].
      * left. split; [now constructor | exact Hs].
      * right. left. exists (m :: before), m0, text, rest, after.
        repeat split; try assumption. now constructor.
      * right. right. exists (m :: before), m0, after.
        repeat split; try assumption. now constructor.
    + unfold skipped in Hm. apply orb_false_elim in Hm as [Hrole Hhead].
      apply negb_false_iff, String.eqb_eq in Hrole.
      simpl. rewrite Hrole. simpl.
      destruct (ThreadMessage.content m) as [|[text|image] rest] eqn:Hc;
        [| |discriminate].
      * right. right. exists [], m, messages.
        repeat split; try assumption; constructor.
      * right. left. exists [], m, text, rest, messages.
        repeat split; try assumption; constructor.
Qed.


(** X10.  [FoundryAgent.__init__] makes two outside calls, once each and in
    this order: it builds the credential, then the project client on the
    configured endpoint with that credential.  When both return, the new
    instance holds the configuration and no tool, and the initialization is
    logged.  When the credential cannot be built, no client is built; and
    whichever of the two raises, that exception is the outcome and nothing
    is logged. *)
Theorem FoundryAgent_init_calls :
  forall cfg w,
    let end_ := FoundryAgent_init handle cfg w in
    match handle NewDefaultAzureCredential (remote w) with
    | (Raise e, s1) =>
        fst end_ = Raise e
        /\ remote (snd end_) = s1
        /\ calls (snd end_)
           = (calls w ++ [mkEvent NewDefaultAzureCredential (Some e)])%list
        /\ log (snd end_) = log w
    | (Ok credential, s1) =>
        let c := NewProjectClient (project_endpoint cfg) credential in
        calls (snd end_)
        = (calls w
             ++ [mkEvent NewDefaultAzureCredential None;
                 mkEvent c (raised (fst (handle c s1)))])%list
        /\ remote (snd end_) = snd (handle c s1)
        /\ match fst (handle c s1) with
           | Ok _ =>
               fst end_
               = Ok {| config := cfg; _tools := []; _function_tools := [] |}
               /\ list_tools {| config := cfg;
                                _tools := @nil (string * Callable S);
                                _function_tools := [] |} = []
               /\ log (snd end_)
                  = (log w
                       ++ [(INFO,
                            ("Initialized Foundry Agent with project: "
                               ++ project_endpoint cfg)%string)])%list
           | Raise e => fst end_ = Raise e /\ log (snd end_) = log w
           end
    end.
Proof.
  intros cfg w. unfold FoundryAgent_init, rpc, logger_info. simpl.
  repeat answer_of_call; rewrite <- ?app_assoc; simpl; repeat split.
Qed.

(** X11.  When a name registered as a function tool is registered again as
    a workflow tool, the callable under the name triggers the workflow and
    no longer reaches the function, while the descriptor of the function
    tool stays in the list beside the new one. *)
Theorem reregistration_leaves_stale_descriptor :
  forall self name function_cfg d1 workflow_cfg d2 w,
    exists self1 w1 self2 w2 tool,
      register_azure_function_tool handle self name function_cfg d1 w = (Ok self1, w1)
      /\ register_logic_app_tool handle self1 name workflow_cfg d2 w1 = (Ok self2, w2)
      /\ dict_get name (_tools self2) = Some tool
      /\ (forall kwargs w',
            map ev_call (calls (snd (__call__ tool kwargs w')))
            = (map ev_call (calls w') ++ [TriggerWorkflow workflow_cfg kwargs])%list)
      /\ _function_tools self2
         = (_function_tools self
              ++ [descriptor name (@FromFunction S function_cfg d1);
                  descriptor name (@FromWorkflow S workflow_cfg d2)])%list
      /\ (In name (list_tools self) -> list_tools self2 = list_tools self).
Proof.
  intros self name function_cfg d1 workflow_cfg d2 w.
  eexists _, _, _, _, _. split; [reflexivity|]. split; [reflexivity|].
  split; [simpl; apply dict_get_set_same|].
  split; [|split].
  - intros kwargs w'. simpl.
    unfold logic_app_tool_function, try_except_Exception, trigger_workflow, rpc,
      logger_info, logger_error. simpl.
    answer_of_call;
      try match goal with
          | |- context [isinstance_Exception ?e] =>
              destruct (isinstance_Exception e); simpl
          end;
      now rewrite map_app.
  - simpl. now rewrite <- app_assoc.
  - intros Hin. unfold list_tools in *. simpl.
    rewrite dict_keys_set_present; [now apply dict_keys_set_present|].
    now rewrite dict_keys_set_present.
Qed.

End Further.

(** X4 at a concrete instance: a function tool registered on a new
    instance. *)
Lemma registration_keeps_consistency_witness :
  exists self' w',
    register scripted (fresh example_config) "process"
      (FromFunction process_config None) quiet = (Ok self', w')
    /\ registry_consistent self'
    /\ List.length (list_tools self') <= List.length (_function_tools self').
Proof.
  destruct (registration_keeps_consistency scripted) as (Hnew & Hkeep & Huse).
  destruct (Hkeep (fresh example_config) "process"
              (FromFunction process_config None) quiet (Hnew example_config))
    as (self' & w' & Hrun & Hself').
  exists self', w'. split; [exact Hrun|]. split; [exact Hself'|].
  exact (proj2 (Huse self' Hself')).
Defined.

(** X7 at a concrete instance: the run ends with status "failed" and the
    listed assistant message is returned all the same. *)
Lemma run_agent_ignores_run_status_witness :
  fst (run_agent scripted_failed_run (fresh example_config) "asst_1" "hello"
         (Some "t7") (script (Ok PyNone) None "t1" [assistant_says "hi"]))
  = Ok "hi".
Proof.
  set (w := script (Ok PyNone) None "t1" [assistant_says "hi"]).
  exact (proj1
           (proj1 (run_agent_ignores_run_status scripted_failed_run)
              (fresh example_config) "asst_1" "hello" "t7" w
              (ThreadMessage.mk "user" [MessageTextContent {| value := "hello" |}])
              (remote w) (ThreadRun.mk "failed") (remote w)
              [assistant_says "hi"] (remote w)
              ltac:(discriminate) eq_refl eq_refl eq_refl)).
Defined.

(** X11 at a concrete instance: "process" is registered on an instance that
    lists it already. *)
Lemma reregistration_leaves_stale_descriptor_witness :
  exists self1 w1 self2 w2,
    register_azure_function_tool scripted
      (store_tool (fresh example_config) "process"
         (registered_callable scripted "process" (FromFunction process_config None))
         (descriptor "process" (@FromFunction Script process_config None)))
      "process" process_config None quiet = (Ok self1, w1)
    /\ register_logic_app_tool scripted self1 "process" notify_config None w1
       = (Ok self2, w2)
    /\ list_tools self2 = ["process"]
    /\ List.length (_function_tools self2) = 3.
Proof.
  destruct (reregistration_leaves_stale_descriptor scripted
              (store_tool (fresh example_config) "process"
                 (registered_callable scripted "process"
                    (FromFunction process_config None))
                 (descriptor "process" (@FromFunction Script process_config None)))
              "process" process_config None notify_config None quiet)
    as (self1 & w1 & self2 & w2 & tool & H1 & H2 & _ & _ & Hdescr & Hnames).
  exists self1, w1, self2, w2. split; [exact H1|]. split; [exact H2|].
  rewrite Hdescr, (Hnames (or_introl eq_refl)). split; reflexivity.
Defined.
